(** * chimera-rs: the binding-generator entry header [wrapper.h]

    The repository holds one C header.  It is embedded here as the text it
    is, together with the part of the C translation phases that gives the
    text its meaning: comment removal (phase 3), the split into lines, the
    recognition of preprocessing directives, and the execution of
    [#include] (phase 4) against the headers of the surrounding toolchain. *)

From Stdlib Require Import String Ascii List Bool Arith Lia.
Import ListNotations.
Local Open Scope string_scope.
Local Open Scope list_scope.

(** ** The source text *)

Module Source.

(** [src/wrapper.h], byte for byte: 454 bytes, no newline after the last
    directive. *)
Definition wrapper_h : string := "/**
 * Header files re-exported from the MLIR C API for binding generation.
 */

#include <mlir-c/Support.h>
#include <mlir-c/IR.h>
#include <mlir-c/Registration.h>
#include <mlir-c/Transforms.h>
#include <mlir-c/Pass.h>
#include <mlir-c/IntegerSet.h>
#include <mlir-c/ExecutionEngine.h>
#include <mlir-c/Diagnostics.h>
#include <mlir-c/Conversion.h>
#include <mlir-c/BuiltinTypes.h>
#include <mlir-c/BuiltinAttributes.h>
#include <mlir-c/Dialect/LLVM.h>".

(** The source tree: every file under [src/] with its content. *)
Definition repository : list (string * string) :=
  [ ("src/wrapper.h", wrapper_h) ].

End Source.

(** ** Characters *)

Module Chars.

Definition LF : ascii := ascii_of_nat 10.

Definition is_newline (c : ascii) : bool := Ascii.eqb c LF.

(** Horizontal white space of the C source character set (and CR). *)
Definition is_space (c : ascii) : bool :=
  let n := nat_of_ascii c in
  ((n =? 32) || (n =? 9) || (n =? 11) || (n =? 12) || (n =? 13))%nat.

Definition is_slash (c : ascii) : bool := Ascii.eqb c "/"%char.
Definition is_star (c : ascii) : bool := Ascii.eqb c "*"%char.
Definition is_hash (c : ascii) : bool := Ascii.eqb c "#"%char.
Definition is_quote (c : ascii) : bool :=
  let n := nat_of_ascii c in ((n =? 34) || (n =? 39))%nat.

Definition is_backslash (c : ascii) : bool := (nat_of_ascii c =? 92)%nat.

(** Characters of an identifier: letters, digits and the underscore. *)
Definition is_ident (c : ascii) : bool :=
  let n := nat_of_ascii c in
  (((65 <=? n) && (n <=? 90)) || ((97 <=? n) && (n <=? 122))
   || ((48 <=? n) && (n <=? 57)) || (n =? 95))%nat.

End Chars.

(** ** Translation phase 3: comments, and the split into lines *)

Module Lexer.
Import Chars.

(** Where the scanner stands: in code, inside a block comment, or inside a
    line comment. *)
Inductive lex_state : Type :=
| InCode
| InBlock
| InLine.

(** Comment removal.  A comment is replaced by one space; the newlines a
    block comment spans are kept, so that every physical line of the file
    keeps its number.  String literals and character constants are not
    tracked: the header has none (see [wrapper_h_no_quote]). *)
Fixpoint strip_comments (st : lex_state) (s : string) : string :=
  match s with
  | EmptyString => EmptyString
  | String c r =>
      match st with
      | InCode =>
          match r with
          | String d r' =>
              if is_slash c && is_star d then
                String " " (strip_comments InBlock r')
              else if is_slash c && is_slash d then
                String " " (strip_comments InLine r')
              else String c (strip_comments InCode r)
          | EmptyString => String c EmptyString
          end
      | InBlock =>
          match r with
          | String d r' =>
              if is_star c && is_slash d then strip_comments InCode r'
              else if is_newline c then String c (strip_comments InBlock r)
              else strip_comments InBlock r
          | EmptyString => if is_newline c then String c EmptyString
                           else EmptyString
          end
      | InLine =>
          if is_newline c then String c (strip_comments InCode r)
          else strip_comments InLine r
      end
  end.

(** Number of newline characters of a text. *)
Fixpoint newline_count (s : string) : nat :=
  match s with
  | EmptyString => 0
  | String c r => (if is_newline c then 1 else 0) + newline_count r
  end.

(** The lines of a text: the pieces between newline characters.  A text
    without a final newline ends in an unterminated line, which counts. *)
Fixpoint split_lines (s : string) : list string :=
  match s with
  | EmptyString => [EmptyString]
  | String c r =>
      if is_newline c then EmptyString :: split_lines r
      else match split_lines r with
           | l :: ls => String c l :: ls
           | [] => [String c EmptyString]
           end
  end.

(** Does a character satisfying [p] occur in [s]? *)
Fixpoint occurs (p : ascii -> bool) (s : string) : bool :=
  match s with
  | EmptyString => false
  | String c r => p c || occurs p r
  end.

Fixpoint skip_spaces (s : string) : string :=
  match s with
  | String c r => if is_space c then skip_spaces r else s
  | EmptyString => EmptyString
  end.

Definition is_blank (s : string) : bool :=
  match skip_spaces s with
  | EmptyString => true
  | String _ _ => false
  end.

(** The longest prefix of identifier characters, and what follows it. *)
Fixpoint read_ident (s : string) : string * string :=
  match s with
  | String c r =>
      if is_ident c then let (w, t) := read_ident r in (String c w, t)
      else (EmptyString, s)
  | EmptyString => (EmptyString, EmptyString)
  end.

(** The text up to the first character satisfying [stop], and what follows
    that character; [None] when no such character occurs. *)
Fixpoint read_until (stop : ascii -> bool) (s : string)
  : option (string * string) :=
  match s with
  | EmptyString => None
  | String c r =>
      if stop c then Some (EmptyString, r)
      else match read_until stop r with
           | Some (w, t) => Some (String c w, t)
           | None => None
           end
  end.

End Lexer.

(** ** Lines and directives *)

Module Directive.
Import Chars Lexer.

(** The two forms of a header name: [<path>] is searched along the include
    search path only, ["path"] is searched relative to the including file
    first. *)
Inductive include_form : Type :=
| Angle
| Quote.

(** What a physical line of a header is, once comments are gone. *)
Inductive line_kind : Type :=
| Blank
| Comment
| Include (form : include_form) (path : string)
| OtherDirective (name : string) (args : string)
| Text (code : string).

Definition is_gt (c : ascii) : bool := Ascii.eqb c ">"%char.
Definition is_lt (c : ascii) : bool := Ascii.eqb c "<"%char.
Definition is_dquote (c : ascii) : bool := (nat_of_ascii c =? 34)%nat.

(** The operand of [#include]: a header name in one of the two forms,
    followed by nothing but white space.  Anything else (a macro to be
    expanded, a missing delimiter, trailing tokens) is not a header name. *)
Definition parse_header_name (args : string)
  : option (include_form * string) :=
  match skip_spaces args with
  | String c r =>
      if is_lt c then
        match read_until is_gt r with
        | Some (p, t) => if is_blank t then Some (Angle, p) else None
        | None => None
        end
      else if is_dquote c then
        match read_until is_dquote r with
        | Some (p, t) => if is_blank t then Some (Quote, p) else None
        | None => None
        end
      else None
  | EmptyString => None
  end.

(** A line of code (comments already removed): a directive when its first
    character that is not white space is [#]. *)
Definition classify_code (code : string) : line_kind :=
  match skip_spaces code with
  | EmptyString => Blank
  | String c r =>
      if is_hash c then
        let (name, args) := read_ident (skip_spaces r) in
        if String.eqb name "include" then
          match parse_header_name args with
          | Some (f, p) => Include f p
          | None => OtherDirective name args
          end
        else OtherDirective name args
      else Text code
  end.

(** A physical line [raw] whose code is [code]: a line that is blank only
    once its comment text is removed is a comment line. *)
Definition classify_line (raw code : string) : line_kind :=
  match classify_code code with
  | Blank => if is_blank raw then Blank else Comment
  | k => k
  end.

Fixpoint classify_lines (raws codes : list string) : list line_kind :=
  match raws, codes with
  | r :: rs, c :: cs => classify_line r c :: classify_lines rs cs
  | _, _ => []
  end.

(** The kinds of the lines of a header, in order. *)
Definition line_kinds (text : string) : list line_kind :=
  classify_lines (split_lines text)
                 (split_lines (strip_comments InCode text)).

End Directive.

(** ** What a header brings into a translation unit *)

Module Unit.
Import Chars Lexer Directive.

(** The header names of the [#include] lines, in order. *)
Fixpoint includes_of (ks : list line_kind)
  : list (include_form * string) :=
  match ks with
  | [] => []
  | Include f p :: ks' => (f, p) :: includes_of ks'
  | _ :: ks' => includes_of ks'
  end.

(** The lines that are code of the header itself: declarations,
    definitions, statements. *)
Fixpoint own_code_of (ks : list line_kind) : list string :=
  match ks with
  | [] => []
  | Text c :: ks' => c :: own_code_of ks'
  | _ :: ks' => own_code_of ks'
  end.

(** The directives other than [#include], by name and operand. *)
Fixpoint other_directives_of (ks : list line_kind)
  : list (string * string) :=
  match ks with
  | [] => []
  | OtherDirective n a :: ks' => (n, a) :: other_directives_of ks'
  | _ :: ks' => other_directives_of ks'
  end.

Definition includes (text : string) : list (include_form * string) :=
  includes_of (line_kinds text).

Definition include_paths (text : string) : list string :=
  map snd (includes text).

Definition own_code (text : string) : list string :=
  own_code_of (line_kinds text).

Definition other_directives (text : string) : list (string * string) :=
  other_directives_of (line_kinds text).

(** The lines that carry something: neither blank nor comment. *)
Definition significant (ks : list line_kind) : list line_kind :=
  filter (fun k => match k with Blank | Comment => false | _ => true end) ks.

Definition is_directive_named (n : string) (k : line_kind) : bool :=
  match k with
  | OtherDirective m _ => String.eqb m n
  | _ => false
  end.

(** [#if], [#ifdef], [#ifndef]: the directives that open a conditional
    group. *)
Definition opens_conditional (k : line_kind) : bool :=
  is_directive_named "if" k || is_directive_named "ifdef" k
  || is_directive_named "ifndef" k.

(** [#pragma once]. *)
Definition is_pragma_once (k : line_kind) : bool :=
  match k with
  | OtherDirective n a =>
      String.eqb n "pragma"
      && String.eqb (fst (read_ident (skip_spaces a))) "once"
      && is_blank (snd (read_ident (skip_spaces a)))
  | _ => false
  end.

(** The include-guard idiom: the first significant line opens a conditional
    group, the second defines a macro, the last is [#endif]. *)
Definition has_include_guard (ks : list line_kind) : bool :=
  match significant ks with
  | k1 :: k2 :: rest =>
      opens_conditional k1 && is_directive_named "define" k2
      && is_directive_named "endif" (last rest Blank)
  | _ => false
  end.

Definition has_pragma_once (ks : list line_kind) : bool :=
  existsb is_pragma_once ks.

(** The definitions the files of a source tree make themselves: their
    lines of code and their directives other than [#include]. *)
Definition own_definitions (repo : list (string * string))
  : list (string * string) :=
  flat_map (fun file =>
              map (pair (fst file)) (own_code (snd file))
              ++ map (fun d => (fst file, fst d))
                     (other_directives (snd file)))
           repo.

End Unit.

(** ** Translation phase 4: executing the directives *)

Module Preprocess.
Import Directive.

(** A piece of the preprocessed translation unit, with where it comes
    from: a line of the including file itself, or the content some header
    name resolved to. *)
Inductive item : Type :=
| OwnCode (code : string)
| Header (form : include_form) (path : string) (content : list string).

Definition from_header (it : item) : bool :=
  match it with
  | Header _ _ _ => true
  | OwnCode _ => false
  end.

(** The header names the pieces of a unit were resolved from. *)
Fixpoint header_names (its : list item) : list (include_form * string) :=
  match its with
  | [] => []
  | Header f p _ :: its' => (f, p) :: header_names its'
  | OwnCode _ :: its' => header_names its'
  end.

(** How preprocessing a file ends. *)
Inductive outcome (A : Type) : Type :=
| Done (a : A)
| MissingHeader (form : include_form) (path : string)
| Unsupported (k : line_kind).

Arguments Done {A} a.
Arguments MissingHeader {A} form path.
Arguments Unsupported {A} k.

Definition bind {A B : Type} (m : outcome A) (f : A -> outcome B)
  : outcome B :=
  match m with
  | Done a => f a
  | MissingHeader fm p => MissingHeader fm p
  | Unsupported k => Unsupported k
  end.

Section Expand.

(** The toolchain around the file: its state while it preprocesses
    (search path, macro table, the guards already seen) and how it
    resolves a header name, which may fail and may change that state. *)
Variable Env : Type.
Variable resolve :
  include_form -> string -> Env -> option (list string * Env).

(** Directives are executed in order.  [#include] is replaced by what the
    toolchain resolves the header name to; a line of code passes through.
    Directives other than [#include] are outside the fragment modelled
    here and are reported as such. *)
Fixpoint expand (ks : list line_kind) (e : Env)
  : outcome (list item * Env) :=
  match ks with
  | [] => Done ([], e)
  | Blank :: ks' => expand ks' e
  | Comment :: ks' => expand ks' e
  | Text c :: ks' =>
      bind (expand ks' e) (fun r => Done (OwnCode c :: fst r, snd r))
  | Include f p :: ks' =>
      match resolve f p e with
      | None => MissingHeader f p
      | Some (h, e1) =>
          bind (expand ks' e1)
               (fun r => Done (Header f p h :: fst r, snd r))
      end
  | OtherDirective n a :: _ => Unsupported (OtherDirective n a)
  end.

(** Resolving a list of header names one after the other. *)
Fixpoint resolve_all (hs : list (include_form * string)) (e : Env)
  : outcome (list item * Env) :=
  match hs with
  | [] => Done ([], e)
  | (f, p) :: hs' =>
      match resolve f p e with
      | None => MissingHeader f p
      | Some (h, e1) =>
          bind (resolve_all hs' e1)
               (fun r => Done (Header f p h :: fst r, snd r))
      end
  end.

End Expand.

Arguments expand {Env} resolve ks e.
Arguments resolve_all {Env} resolve hs e.

(** Preprocessing the text of a header. *)
Definition preprocess {Env : Type}
  (resolve : include_form -> string -> Env -> option (list string * Env))
  (text : string) (e : Env) : outcome (list item * Env) :=
  expand resolve (line_kinds text) e.

End Preprocess.

(** ** The external interface as the specification lists it *)

Module Spec.

(** The header paths of the specification's section 6, in the order of its
    listing. *)
Definition section6_paths : list string :=
  [ "mlir-c/Support.h"; "mlir-c/IR.h"; "mlir-c/Registration.h";
    "mlir-c/Transforms.h"; "mlir-c/Pass.h"; "mlir-c/IntegerSet.h";
    "mlir-c/ExecutionEngine.h"; "mlir-c/Diagnostics.h";
    "mlir-c/Conversion.h"; "mlir-c/BuiltinTypes.h";
    "mlir-c/BuiltinAttributes.h"; "mlir-c/Dialect/LLVM.h" ].

End Spec.

(** ** Sample inputs *)

Module Samples.
Import Directive Preprocess.

(** A header of the usual guarded shape, with code and both comment
    styles. *)
Definition guarded_h : string := "#ifndef DEMO_H
#define DEMO_H
#include <a.h> // first
int f(void); /* declared
   here */ int g(void);
#endif
".

(** A header that relies on [#pragma once]. *)
Definition once_h : string := "#pragma once
#include <a.h>".

(** A toolchain that has every header, each protected by a guard of its
    own: its state is the list of the paths already included, and a path
    included again contributes nothing. *)
Definition guarded_toolchain (f : include_form) (p : string)
  (seen : list string) : option (list string * list string) :=
  if existsb (String.eqb p) seen then Some ([], seen)
  else Some (["/* declarations of " ++ p ++ " */"]%string, seen ++ [p]).

(** A toolchain whose search path lacks one header. *)
Definition toolchain_without (missing : string) (f : include_form)
  (p : string) (seen : list string) : option (list string * list string) :=
  if String.eqb p missing then None else guarded_toolchain f p seen.

(** A toolchain that knows the angle-bracket names under [mlir-c/] and
    nothing else. *)
Definition mlir_c_only_toolchain (f : include_form) (p : string)
  (seen : list string) : option (list string * list string) :=
  match f with
  | Angle => if String.prefix "mlir-c/" p then guarded_toolchain f p seen
             else None
  | Quote => None
  end.

End Samples.

(** ** Toolchains without state *)

Module Toolchain.
Import Directive Preprocess.

(** A toolchain whose headers are fixed texts: resolving a header name
    gives the same content in every state and leaves the state alone. *)
Definition stateless {Env : Type}
  (content : include_form -> string -> option (list string))
  (f : include_form) (p : string) (e : Env)
  : option (list string * Env) :=
  match content f p with
  | Some c => Some (c, e)
  | None => None
  end.

(** The content of a header that is known to exist. *)
Definition content_of
  (content : include_form -> string -> option (list string))
  (h : include_form * string) : list string :=
  match content (fst h) (snd h) with
  | Some c => c
  | None => []
  end.

(** The lines of a preprocessed unit, in order. *)
Definition unit_lines (its : list item) : list string :=
  flat_map (fun it => match it with
                      | Header _ _ c => c
                      | OwnCode c => [c]
                      end) its.

End Toolchain.

(** ** Properties of the lexer *)

Module LexerFacts.
Import Chars Lexer Directive.

Lemma slash_not_newline (c : ascii) :
  is_slash c = true -> is_newline c = false.
Proof.
  unfold is_slash, is_newline. intros H.
  apply Ascii.eqb_eq in H. subst c. reflexivity.
Qed.

Lemma star_not_newline (c : ascii) :
  is_star c = true -> is_newline c = false.
Proof.
  unfold is_star, is_newline. intros H.
  apply Ascii.eqb_eq in H. subst c. reflexivity.
Qed.

(** A text has one line more than it has newline characters. *)
Lemma split_lines_length (s : string) :
  List.length (split_lines s) = S (newline_count s).
Proof.
  induction s as [|c r IH]; simpl; [reflexivity|].
  destruct (is_newline c); simpl.
  - now rewrite IH.
  - destruct (split_lines r) as [|l ls]; simpl in *; lia.
Qed.

Lemma split_lines_nonempty (s : string) : split_lines s <> [].
Proof.
  intros H. pose proof (split_lines_length s) as L.
  rewrite H in L. discriminate L.
Qed.

(** The scanner's equations on a text of two characters or more. *)
Lemma strip_code_eq (c d : ascii) (r : string) :
  strip_comments InCode (String c (String d r)) =
  if is_slash c && is_star d then String " " (strip_comments InBlock r)
  else if is_slash c && is_slash d then
         String " " (strip_comments InLine r)
  else String c (strip_comments InCode (String d r)).
Proof. reflexivity. Qed.

Lemma strip_block_eq (c d : ascii) (r : string) :
  strip_comments InBlock (String c (String d r)) =
  if is_star c && is_slash d then strip_comments InCode r
  else if is_newline c then
         String c (strip_comments InBlock (String d r))
  else strip_comments InBlock (String d r).
Proof. reflexivity. Qed.

Lemma strip_line_eq (c : ascii) (r : string) :
  strip_comments InLine (String c r) =
  if is_newline c then String c (strip_comments InCode r)
  else strip_comments InLine r.
Proof. reflexivity. Qed.

(** Comment removal keeps every newline, whatever state it starts in. *)
Lemma strip_comments_newlines_upto (n : nat) :
  forall (s : string) (st : lex_state),
    String.length s <= n ->
    newline_count (strip_comments st s) = newline_count s.
Proof.
  induction n as [|n IH]; intros s st Hlen.
  - destruct s; [reflexivity | simpl in Hlen; lia].
  - destruct s as [|c r]; [reflexivity|].
    simpl in Hlen.
    assert (Hr : String.length r <= n) by lia.
    destruct st.
    + destruct r as [|d r']; [reflexivity|].
      assert (Hr' : String.length r' <= n) by (simpl in Hr; lia).
      rewrite strip_code_eq.
      destruct (is_slash c && is_star d) eqn:Hopen.
      * apply andb_prop in Hopen. destruct Hopen as [Hc Hd].
        cbn [newline_count].
        rewrite (IH r' InBlock Hr').
        rewrite (slash_not_newline c Hc), (star_not_newline d Hd).
        reflexivity.
      * destruct (is_slash c && is_slash d) eqn:Hline.
        -- apply andb_prop in Hline. destruct Hline as [Hc Hd].
           cbn [newline_count].
           rewrite (IH r' InLine Hr').
           rewrite (slash_not_newline c Hc), (slash_not_newline d Hd).
           reflexivity.
        -- change (newline_count (String c (strip_comments InCode (String d r'))))
             with ((if is_newline c then 1 else 0)
                   + newline_count (strip_comments InCode (String d r'))).
           rewrite (IH (String d r') InCode Hr). reflexivity.
    + destruct r as [|d r'].
      * cbn [strip_comments].
        destruct (is_newline c) eqn:Hn; cbn [newline_count];
          rewrite ?Hn; reflexivity.
      * assert (Hr' : String.length r' <= n) by (simpl in Hr; lia).
        rewrite strip_block_eq.
        destruct (is_star c && is_slash d) eqn:Hclose.
        -- apply andb_prop in Hclose. destruct Hclose as [Hc Hd].
           rewrite (IH r' InCode Hr').
           cbn [newline_count].
           rewrite (star_not_newline c Hc), (slash_not_newline d Hd).
           reflexivity.
        -- change (newline_count (String c (String d r')))
             with ((if is_newline c then 1 else 0)
                   + newline_count (String d r')).
           destruct (is_newline c) eqn:Hn.
           ++ change (newline_count (String c (strip_comments InBlock (String d r'))))
                with ((if is_newline c then 1 else 0)
                      + newline_count (strip_comments InBlock (String d r'))).
              rewrite Hn, (IH (String d r') InBlock Hr). reflexivity.
           ++ rewrite (IH (String d r') InBlock Hr). reflexivity.
    + rewrite strip_line_eq.
      change (newline_count (String c r))
        with ((if is_newline c then 1 else 0) + newline_count r).
      destruct (is_newline c) eqn:Hn.
      * cbn [newline_count]. rewrite Hn, (IH r InCode Hr). reflexivity.
      * rewrite (IH r InLine Hr). reflexivity.
Qed.

Lemma strip_comments_newlines (st : lex_state) (s : string) :
  newline_count (strip_comments st s) = newline_count s.
Proof.
  apply (strip_comments_newlines_upto (String.length s)). lia.
Qed.

(** So no physical line is lost or made by comment removal. *)
Lemma strip_comments_lines (st : lex_state) (s : string) :
  List.length (split_lines (strip_comments st s))
  = List.length (split_lines s).
Proof.
  now rewrite !split_lines_length, strip_comments_newlines.
Qed.

Lemma classify_lines_length (raws codes : list string) :
  List.length raws = List.length codes ->
  List.length (classify_lines raws codes) = List.length raws.
Proof.
  revert codes.
  induction raws as [|r rs IH]; intros [|c cs] H; simpl in *;
    try reflexivity; try discriminate.
  f_equal. apply IH. now injection H.
Qed.

(** Every physical line of a header is classified, and only those. *)
Lemma line_kinds_length (text : string) :
  List.length (line_kinds text) = S (newline_count text).
Proof.
  unfold line_kinds.
  rewrite classify_lines_length.
  - apply split_lines_length.
  - symmetry. apply strip_comments_lines.
Qed.

(** [read_until] finds the text before the first stop character. *)
Lemma read_until_append (stop : ascii -> bool) (w t : string) (c : ascii) :
  occurs stop w = false -> stop c = true ->
  read_until stop (w ++ String c t) = Some (w, t).
Proof.
  intros Hw Hc.
  induction w as [|a w IH]; simpl in *.
  - now rewrite Hc.
  - apply orb_false_elim in Hw. destruct Hw as [Ha Hw].
    rewrite Ha, (IH Hw). reflexivity.
Qed.

(** The directive name [include] followed by a space hands the rest of
    the line to the header-name parser. *)
Lemma classify_code_include (rest : string) :
  classify_code ("#include " ++ rest) =
  match parse_header_name (String " " rest) with
  | Some (f, p) => Include f p
  | None => OtherDirective "include" (String " " rest)
  end.
Proof. reflexivity. Qed.

Lemma parse_header_name_angle (t : string) :
  parse_header_name (String " " (String "<" t)) =
  match read_until is_gt t with
  | Some (p, u) => if is_blank u then Some (Angle, p) else None
  | None => None
  end.
Proof. reflexivity. Qed.

(** An angle-bracket directive written out is read back as what it is. *)
Lemma classify_code_angle (p : string) :
  occurs is_gt p = false ->
  classify_code ("#include <" ++ p ++ ">") = Include Angle p.
Proof.
  intros Hp.
  change ("#include <" ++ p ++ ">")%string
    with ("#include " ++ String "<" (p ++ ">"))%string.
  rewrite classify_code_include, parse_header_name_angle.
  rewrite (read_until_append is_gt p EmptyString ">"%char Hp eq_refl).
  reflexivity.
Qed.

End LexerFacts.

(** ** Properties of directive execution *)

Module PreprocessFacts.
Import Directive Unit Preprocess.

Section Resolver.

Context {Env : Type}.
Variable resolve :
  include_form -> string -> Env -> option (list string * Env).

(** A file with no code and no directive but [#include] is preprocessed
    by resolving its header names in order. *)
Lemma expand_includes_only (ks : list line_kind) :
  own_code_of ks = [] ->
  other_directives_of ks = [] ->
  forall e, expand resolve ks e = resolve_all resolve (includes_of ks) e.
Proof.
  induction ks as [|k ks IH]; intros Hown Hdir e; [reflexivity|].
  destruct k; simpl in *; try discriminate; auto.
  destruct (resolve form path e) as [[h e1]|]; [|reflexivity].
  now rewrite IH.
Qed.

(** How resolving a list of header names can end: with one piece per
    header name, in order, or at a header name the toolchain could not
    resolve. *)
Lemma resolve_all_outcome (hs : list (include_form * string)) :
  forall e,
    match resolve_all resolve hs e with
    | Done r =>
        forallb from_header (fst r) = true /\ header_names (fst r) = hs
    | MissingHeader f p =>
        In (f, p) hs /\ exists e', resolve f p e' = None
    | Unsupported _ => False
    end.
Proof.
  induction hs as [|[f p] hs IH]; intros e; simpl.
  - split; reflexivity.
  - destruct (resolve f p e) as [[h e1]|] eqn:R.
    + specialize (IH e1).
      destruct (resolve_all resolve hs e1) as [[its e2]|f' p'|k]; simpl in *.
      * destruct IH as [IH1 IH2]. split; [exact IH1 | now rewrite IH2].
      * destruct IH as [IH1 IH2]. split; [now right | exact IH2].
      * exact IH.
    + split; [now left | now exists e].
Qed.

(** When every header name resolves, in every state, so does the list. *)
Lemma resolve_all_total (hs : list (include_form * string)) :
  (forall f p e, In (f, p) hs -> resolve f p e <> None) ->
  forall e, exists r, resolve_all resolve hs e = Done r.
Proof.
  intros Hres e.
  pose proof (resolve_all_outcome hs e) as H.
  destruct (resolve_all resolve hs e) as [r|f p|k].
  - now exists r.
  - destruct H as [Hin [e' He']]. now destruct (Hres f p e' Hin).
  - destruct H.
Qed.

(** Preprocessing two texts one after the other: the second starts in
    the state the first leaves. *)
Lemma expand_app (ks1 ks2 : list line_kind) :
  forall e,
    expand resolve (ks1 ++ ks2) e =
    bind (expand resolve ks1 e)
         (fun r1 => bind (expand resolve ks2 (snd r1))
                         (fun r2 => Done (fst r1 ++ fst r2, snd r2))).
Proof.
  induction ks1 as [|k ks1 IH]; intros e; simpl.
  - destruct (expand resolve ks2 e) as [[its e']| |]; reflexivity.
  - destruct k; auto.
    + destruct (resolve form path e) as [[h e1]|]; [|reflexivity].
      rewrite IH.
      destruct (expand resolve ks1 e1) as [[its1 e2]| |]; simpl;
        [|reflexivity|reflexivity].
      destruct (expand resolve ks2 e2) as [[its2 e3]| |]; reflexivity.
    + rewrite IH.
      destruct (expand resolve ks1 e) as [[its1 e2]| |]; simpl;
        [|reflexivity|reflexivity].
      destruct (expand resolve ks2 e2) as [[its2 e3]| |]; reflexivity.
Qed.

End Resolver.

(** Only the header names a file includes matter to its preprocessing. *)
Lemma resolve_all_ext {Env : Type}
  (r1 r2 : include_form -> string -> Env -> option (list string * Env))
  (hs : list (include_form * string)) :
  (forall f p e, In (f, p) hs -> r1 f p e = r2 f p e) ->
  forall e, resolve_all r1 hs e = resolve_all r2 hs e.
Proof.
  induction hs as [|[f p] hs IH]; intros Hagree e; simpl; [reflexivity|].
  rewrite (Hagree f p e (or_introl eq_refl)).
  destruct (r2 f p e) as [[h e1]|]; [|reflexivity].
  rewrite IH; [reflexivity|].
  intros f' p' e' Hin. apply Hagree. now right.
Qed.

End PreprocessFacts.

(** ** Resolving header names in sequence *)

Module ResolveFacts.
Import Directive Unit Preprocess Toolchain.

Section Sequence.

Context {Env : Type}.
Variable resolve :
  include_form -> string -> Env -> option (list string * Env).

(** Resolution stops at the first header name that cannot be resolved:
    the names after it are never looked at. *)
Lemma resolve_all_first_missing
  (pre post : list (include_form * string)) (f : include_form)
  (p : string) :
  forall (e : Env) (r : list item * Env),
    resolve_all resolve pre e = Done r ->
    resolve f p (snd r) = None ->
    resolve_all resolve (pre ++ (f, p) :: post) e = MissingHeader f p.
Proof.
  induction pre as [|[g q] pre IH]; intros e r Hpre Hmiss; simpl in *.
  - injection Hpre as <-. simpl in Hmiss. now rewrite Hmiss.
  - destruct (resolve g q e) as [[h e1]|]; [|discriminate].
    destruct (resolve_all resolve pre e1) as [r1| |] eqn:R1;
      simpl in Hpre; try discriminate.
    injection Hpre as <-. simpl in Hmiss.
    now rewrite (IH e1 r1 R1 Hmiss).
Qed.


End Sequence.

(** With a stateless toolchain that has every header asked for, the unit
    is the headers' contents, one piece per name, and the state is
    untouched. *)
Lemma resolve_all_stateless {Env : Type}
  (content : include_form -> string -> option (list string))
  (hs : list (include_form * string)) (e : Env) :
  (forall h, In h hs -> content (fst h) (snd h) <> None) ->
  resolve_all (stateless content) hs e
  = Done (map (fun h => Header (fst h) (snd h) (content_of content h)) hs,
          e).
Proof.
  induction hs as [|[f p] hs IH]; intros Hall; simpl; [reflexivity|].
  unfold stateless at 1, content_of at 1. simpl.
  destruct (content f p) as [c|] eqn:C.
  - rewrite IH; [reflexivity|]. intros h Hin. apply Hall. now right.
  - exfalso. apply (Hall (f, p)); [now left | exact C].
Qed.

Lemma unit_lines_headers
  (content : include_form -> string -> option (list string))
  (hs : list (include_form * string)) :
  unit_lines (map (fun h => Header (fst h) (snd h) (content_of content h))
                  hs)
  = flat_map (content_of content) hs.
Proof.
  unfold unit_lines.
  induction hs as [|h hs IH]; cbn [map flat_map]; [reflexivity|].
  now rewrite IH.
Qed.

End ResolveFacts.

(** ** The model on the sample inputs *)

Module SampleFacts.
Import Source Lexer Directive Unit Preprocess Samples.

Example guarded_h_kinds :
  line_kinds guarded_h =
  [ OtherDirective "ifndef" " DEMO_H";
    OtherDirective "define" " DEMO_H";
    Include Angle "a.h";
    Text "int f(void);  ";
    Text " int g(void);";
    OtherDirective "endif" "";
    Blank ].
Proof. vm_compute. reflexivity. Qed.

Example guarded_h_has_guard :
  has_include_guard (line_kinds guarded_h) = true
  /\ has_pragma_once (line_kinds guarded_h) = false.
Proof. split; vm_compute; reflexivity. Qed.

Example once_h_has_pragma_once :
  has_include_guard (line_kinds once_h) = false
  /\ has_pragma_once (line_kinds once_h) = true.
Proof. split; vm_compute; reflexivity. Qed.

Example guarded_h_unsupported :
  preprocess guarded_toolchain guarded_h []
  = Unsupported (OtherDirective "ifndef" " DEMO_H").
Proof. vm_compute. reflexivity. Qed.

(** With every header at hand, [wrapper.h] becomes twelve pieces, one per
    header. *)
Example wrapper_h_all_resolved :
  match preprocess guarded_toolchain wrapper_h [] with
  | Done (its, seen) =>
      header_names its = includes wrapper_h
      /\ seen = include_paths wrapper_h
      /\ List.length (flat_map (fun it => match it with
                                          | Header _ _ c => c
                                          | OwnCode c => [c]
                                          end) its) = 12
  | _ => False
  end.
Proof. vm_compute. repeat split. Qed.

(** Included again in the state the first inclusion left, it contributes
    nothing more: the guards of the headers do the work. *)
Example wrapper_h_included_again :
  match preprocess guarded_toolchain wrapper_h (include_paths wrapper_h) with
  | Done (its, seen) =>
      header_names its = includes wrapper_h
      /\ seen = include_paths wrapper_h
      /\ flat_map (fun it => match it with
                             | Header _ _ c => c
                             | OwnCode c => [c]
                             end) its = []
  | _ => False
  end.
Proof. vm_compute. repeat split. Qed.

(** With one header out of reach, preprocessing stops at its name. *)
Example wrapper_h_missing_pass :
  preprocess (toolchain_without "mlir-c/Pass.h") wrapper_h []
  = MissingHeader Angle "mlir-c/Pass.h".
Proof. vm_compute. reflexivity. Qed.

End SampleFacts.

(** ** The header [wrapper.h] *)

Module Wrapper.
Import Source Chars Lexer Directive Unit Preprocess.
Import LexerFacts PreprocessFacts.

(** The text has no quote and no backslash: no string literal or character
    constant in which comment marks would have to be ignored, and no line
    spliced to the next one. *)
Lemma wrapper_h_no_quote :
  occurs (fun c => is_quote c || is_backslash c) wrapper_h = false.
Proof. vm_compute. reflexivity. Qed.

Lemma wrapper_h_size : String.length wrapper_h = 454.
Proof. vm_compute. reflexivity. Qed.

(** The lines of the header, classified. *)
Lemma wrapper_h_kinds :
  line_kinds wrapper_h =
  [ Comment; Comment; Comment; Blank;
    Include Angle "mlir-c/Support.h";
    Include Angle "mlir-c/IR.h";
    Include Angle "mlir-c/Registration.h";
    Include Angle "mlir-c/Transforms.h";
    Include Angle "mlir-c/Pass.h";
    Include Angle "mlir-c/IntegerSet.h";
    Include Angle "mlir-c/ExecutionEngine.h";
    Include Angle "mlir-c/Diagnostics.h";
    Include Angle "mlir-c/Conversion.h";
    Include Angle "mlir-c/BuiltinTypes.h";
    Include Angle "mlir-c/BuiltinAttributes.h";
    Include Angle "mlir-c/Dialect/LLVM.h" ].
Proof. vm_compute. reflexivity. Qed.

Lemma wrapper_h_own_code : own_code wrapper_h = [].
Proof. unfold own_code. rewrite wrapper_h_kinds. reflexivity. Qed.

Lemma wrapper_h_other_directives : other_directives wrapper_h = [].
Proof. unfold other_directives. rewrite wrapper_h_kinds. reflexivity. Qed.

Lemma wrapper_h_includes :
  includes wrapper_h = map (pair Angle) (include_paths wrapper_h).
Proof.
  unfold include_paths, includes. rewrite wrapper_h_kinds. reflexivity.
Qed.

(** Preprocessing the header is resolving its header names in order. *)
Lemma expand_wrapper_h {Env : Type}
  (resolve : include_form -> string -> Env -> option (list string * Env))
  (e : Env) :
  expand resolve (line_kinds wrapper_h) e
  = resolve_all resolve (includes wrapper_h) e.
Proof.
  unfold includes.
  apply expand_includes_only.
  - exact wrapper_h_own_code.
  - exact wrapper_h_other_directives.
Qed.

Lemma preprocess_wrapper_h {Env : Type}
  (resolve : include_form -> string -> Env -> option (list string * Env))
  (e : Env) :
  preprocess resolve wrapper_h e
  = resolve_all resolve (includes wrapper_h) e.
Proof. unfold preprocess. apply expand_wrapper_h. Qed.

Lemma wrapper_h_angle_prefix :
  Forall (fun h => fst h = Angle
                   /\ String.prefix "mlir-c/" (snd h) = true)
         (includes wrapper_h).
Proof.
  unfold includes. rewrite wrapper_h_kinds.
  repeat constructor.
Qed.

(** C1. The header paths the [#include] directives of [wrapper.h] refer to
    are, as a set, the twelve paths of the specification's section 6: each
    of the twelve is referred to by a directive, each directive refers to
    one of the twelve, and no directive is left whose header name could not
    be read. *)
Theorem include_set_is_section6 :
  List.length Spec.section6_paths = 12
  /\ (forall p : string,
        In p (include_paths wrapper_h) <-> In p Spec.section6_paths)
  /\ (forall args : string,
        ~ In ("include", args) (other_directives wrapper_h)).
Proof.
  split; [reflexivity|]. split.
  - intros p. unfold include_paths, includes.
    rewrite wrapper_h_kinds. reflexivity.
  - intros args. rewrite wrapper_h_other_directives. intros [].
Qed.

(** C2 as stated fails: the first line of [wrapper.h] opens a comment, and
    so the lines of the file, sixteen with the last, unterminated one, are
    not all [#include] directives. *)
Lemma not_every_line_is_an_include :
  nth_error (split_lines wrapper_h) 0 = Some "/**"
  /\ nth_error (line_kinds wrapper_h) 0 = Some Comment
  /\ List.length (line_kinds wrapper_h) = 16
  /\ ~ Forall (fun k => exists f p, k = Include f p)
              (line_kinds wrapper_h).
Proof.
  split; [vm_compute; reflexivity|].
  rewrite wrapper_h_kinds. split; [reflexivity|].
  split; [reflexivity|].
  intros H. inversion H as [|k ks [f [p Hk]] Hks]. discriminate Hk.
Qed.

(** C2, amended. The source tree is one header file.  The file has fifteen
    lines ended by a newline and a sixteenth, last line without one.  Its
    first three lines are a comment block, the fourth is blank, and the
    other twelve are [#include] directives; there is nothing else: the
    lines that are neither comment nor blank are exactly the directives,
    with no code and no other directive. *)
Theorem header_line_structure :
  List.length repository = 1
  /\ newline_count wrapper_h = 15
  /\ List.length (split_lines wrapper_h) = 16
  /\ line_kinds wrapper_h =
       repeat Comment 3 ++ [Blank]
       ++ map (Include Angle) (include_paths wrapper_h)
  /\ List.length (include_paths wrapper_h) = 12
  /\ significant (line_kinds wrapper_h)
     = map (Include Angle) (include_paths wrapper_h)
  /\ own_code wrapper_h = []
  /\ other_directives wrapper_h = [].
Proof.
  split; [reflexivity|].
  split; [vm_compute; reflexivity|].
  split; [rewrite split_lines_length; vm_compute; reflexivity|].
  unfold include_paths, includes, own_code, other_directives.
  rewrite wrapper_h_kinds. repeat split; reflexivity.
Qed.

(** C3. [wrapper.h] declares nothing of its own: each of its lines is an
    [#include] directive, a comment line or a blank line; no line is code
    (a function, a type, a class, data, a statement) and no directive
    defines a macro or opens a conditional; and whatever the toolchain
    resolves the headers to, every piece of the preprocessed unit comes
    from one of those headers. *)
Theorem header_declares_nothing :
  Forall (fun k => match k with
                   | Include _ _ | Comment | Blank => True
                   | OtherDirective _ _ | Text _ => False
                   end) (line_kinds wrapper_h)
  /\ own_code wrapper_h = []
  /\ other_directives wrapper_h = []
  /\ (forall (Env : Type)
        (resolve : include_form -> string -> Env
                   -> option (list string * Env))
        (e : Env),
        match preprocess resolve wrapper_h e with
        | Done r => forallb from_header (fst r) = true
                    /\ header_names (fst r) = includes wrapper_h
        | _ => True
        end).
Proof.
  split; [rewrite wrapper_h_kinds; repeat constructor|].
  split; [exact wrapper_h_own_code|].
  split; [exact wrapper_h_other_directives|].
  intros Env resolve e. rewrite preprocess_wrapper_h.
  pose proof (resolve_all_outcome resolve (includes wrapper_h) e) as H.
  destruct (resolve_all resolve (includes wrapper_h) e); auto.
Qed.

(** C4. Nothing [wrapper.h] defines can fail, because it defines nothing:
    no line of code and no directive but [#include].  Preprocessing it,
    with any toolchain in any state, either yields the resolved headers or
    stops at one of the file's header names that the toolchain could not
    resolve; it never stops for a reason of the file's own. *)
Theorem failures_come_from_the_toolchain :
  own_code wrapper_h = []
  /\ other_directives wrapper_h = []
  /\ (forall (Env : Type)
        (resolve : include_form -> string -> Env
                   -> option (list string * Env))
        (e : Env),
        match preprocess resolve wrapper_h e with
        | Done r => header_names (fst r) = includes wrapper_h
        | MissingHeader f p =>
            In (f, p) (includes wrapper_h)
            /\ exists e', resolve f p e' = None
        | Unsupported _ => False
        end).
Proof.
  split; [exact wrapper_h_own_code|].
  split; [exact wrapper_h_other_directives|].
  intros Env resolve e. rewrite preprocess_wrapper_h.
  pose proof (resolve_all_outcome resolve (includes wrapper_h) e) as H.
  destruct (resolve_all resolve (includes wrapper_h) e); tauto.
Qed.

(** C5. The source tree has exactly one file, the header [wrapper.h], and
    that file defines nothing that could be a component: no code, no macro,
    no state. *)
Theorem one_artifact_no_component :
  List.length repository = 1
  /\ map fst repository = ["src/wrapper.h"]
  /\ map snd repository = [wrapper_h]
  /\ own_definitions repository = [].
Proof.
  do 3 (split; [reflexivity|]).
  unfold own_definitions, repository. cbn [flat_map fst snd].
  rewrite wrapper_h_own_code, wrapper_h_other_directives. reflexivity.
Qed.

(** C6. The [#include] directives of [wrapper.h] refer to the twelve
    header paths in the order of the listing of the specification's
    section 6, from [mlir-c/Support.h] to [mlir-c/Dialect/LLVM.h]. *)
Theorem include_order_is_section6 :
  include_paths wrapper_h = Spec.section6_paths
  /\ hd_error (include_paths wrapper_h) = Some "mlir-c/Support.h"
  /\ last (include_paths wrapper_h) "" = "mlir-c/Dialect/LLVM.h".
Proof.
  unfold include_paths, includes. rewrite wrapper_h_kinds.
  repeat split.
Qed.

(** C7. Each of the twelve [#include] directives of [wrapper.h] has the
    angle-bracket form and a path that starts with [mlir-c/]; so the
    preprocessed unit depends on the toolchain only through how it
    resolves angle-bracket names under [mlir-c/]. *)
Theorem includes_are_angle_mlir_c :
  List.length (includes wrapper_h) = 12
  /\ Forall (fun h => fst h = Angle
                      /\ String.prefix "mlir-c/" (snd h) = true)
            (includes wrapper_h)
  /\ (forall (Env : Type)
        (r1 r2 : include_form -> string -> Env
                 -> option (list string * Env)),
        (forall p e, String.prefix "mlir-c/" p = true ->
                     r1 Angle p e = r2 Angle p e) ->
        forall e, preprocess r1 wrapper_h e = preprocess r2 wrapper_h e).
Proof.
  split; [unfold includes; rewrite wrapper_h_kinds; reflexivity|].
  split; [exact wrapper_h_angle_prefix|].
  intros Env r1 r2 Hagree e.
  rewrite !preprocess_wrapper_h.
  apply resolve_all_ext.
  intros f p e' Hin.
  pose proof wrapper_h_angle_prefix as HF.
  rewrite Forall_forall in HF.
  destruct (HF (f, p) Hin) as [Hf Hp]. simpl in Hf, Hp. subst f.
  now apply Hagree.
Qed.

(** C7 at two toolchains that agree on the angle-bracket names under
    [mlir-c/] and differ everywhere else: they preprocess [wrapper.h]
    alike. *)
Lemma includes_are_angle_mlir_c_witness :
  (forall p e, String.prefix "mlir-c/" p = true ->
               Samples.guarded_toolchain Angle p e
               = Samples.mlir_c_only_toolchain Angle p e)
  /\ Samples.guarded_toolchain Quote "mlir-c/IR.h" []
     <> Samples.mlir_c_only_toolchain Quote "mlir-c/IR.h" []
  /\ preprocess Samples.guarded_toolchain wrapper_h []
     = preprocess Samples.mlir_c_only_toolchain wrapper_h [].
Proof.
  assert (Hagree : forall p e, String.prefix "mlir-c/" p = true ->
                     Samples.guarded_toolchain Angle p e
                     = Samples.mlir_c_only_toolchain Angle p e).
  { intros p e Hp. unfold Samples.mlir_c_only_toolchain.
    rewrite Hp. reflexivity. }
  split; [exact Hagree|].
  split; [discriminate|].
  exact (proj2 (proj2 includes_are_angle_mlir_c) _ _ _ Hagree []).
Defined.

(** C8. The twelve include paths of [wrapper.h] are pairwise distinct: no
    header path is referred to by two directives. *)
Theorem include_paths_distinct :
  List.length (include_paths wrapper_h) = 12
  /\ NoDup (include_paths wrapper_h).
Proof.
  unfold include_paths, includes. rewrite wrapper_h_kinds.
  split; [reflexivity|].
  cbn [includes_of map snd].
  match goal with
  | |- NoDup ?l => replace l with (nodup string_dec l)
  end.
  - apply NoDup_nodup.
  - vm_compute. reflexivity.
Qed.

(** C9. [wrapper.h] has no include guard and no [#pragma once]: no line of
    it opens a conditional, defines a macro or is a pragma.  Including the
    file a second time therefore hands all twelve header names to the
    toolchain again, in the state the first inclusion left: whether their
    content is repeated is up to those headers. *)
Theorem no_guard_no_pragma_once :
  has_include_guard (line_kinds wrapper_h) = false
  /\ has_pragma_once (line_kinds wrapper_h) = false
  /\ existsb opens_conditional (line_kinds wrapper_h) = false
  /\ other_directives wrapper_h = []
  /\ (forall (Env : Type)
        (resolve : include_form -> string -> Env
                   -> option (list string * Env))
        (e : Env),
        expand resolve (line_kinds wrapper_h ++ line_kinds wrapper_h) e =
        bind (resolve_all resolve (includes wrapper_h) e)
             (fun r1 =>
                bind (resolve_all resolve (includes wrapper_h) (snd r1))
                     (fun r2 => Done (fst r1 ++ fst r2, snd r2)))).
Proof.
  split; [rewrite wrapper_h_kinds; reflexivity|].
  split; [rewrite wrapper_h_kinds; reflexivity|].
  split; [rewrite wrapper_h_kinds; reflexivity|].
  split; [exact wrapper_h_other_directives|].
  intros Env resolve e.
  rewrite expand_app, expand_wrapper_h.
  destruct (resolve_all resolve (includes wrapper_h) e) as [r1| |];
    cbn [bind]; [|reflexivity|reflexivity].
  rewrite expand_wrapper_h. reflexivity.
Qed.

End Wrapper.

(** ** Using [wrapper.h] with a toolchain *)

Module WrapperUse.
Import Source Directive Unit Preprocess Toolchain.
Import PreprocessFacts ResolveFacts Wrapper.

(** X1. Preprocessing [wrapper.h] stops at the first of its header names
    the toolchain cannot resolve: when the names before [p] in the file
    all resolve, one after the other, and [p] does not resolve in the
    state they leave, the outcome is that [p] is missing, whatever the
    toolchain would do with the names after [p]. *)
Theorem stops_at_first_missing_header :
  forall (Env : Type)
    (resolve : include_form -> string -> Env -> option (list string * Env))
    (e : Env) (pre post : list string) (p : string)
    (r : list item * Env),
    include_paths wrapper_h = pre ++ p :: post ->
    resolve_all resolve (map (pair Angle) pre) e = Done r ->
    resolve Angle p (snd r) = None ->
    preprocess resolve wrapper_h e = MissingHeader Angle p.
Proof.
  intros Env resolve e pre post p r Hsplit Hpre Hmiss.
  rewrite preprocess_wrapper_h, wrapper_h_includes, Hsplit.
  rewrite map_app. cbn [map].
  exact (resolve_all_first_missing resolve _ _ Angle p e r Hpre Hmiss).
Qed.

(** X1 at a toolchain that lacks [mlir-c/Pass.h], the fifth header. *)
Lemma stops_at_first_missing_header_witness :
  preprocess (Samples.toolchain_without "mlir-c/Pass.h") wrapper_h []
  = MissingHeader Angle "mlir-c/Pass.h".
Proof.
  eapply (stops_at_first_missing_header _
            (Samples.toolchain_without "mlir-c/Pass.h") []
            [ "mlir-c/Support.h"; "mlir-c/IR.h"; "mlir-c/Registration.h";
              "mlir-c/Transforms.h" ]
            [ "mlir-c/IntegerSet.h"; "mlir-c/ExecutionEngine.h";
              "mlir-c/Diagnostics.h"; "mlir-c/Conversion.h";
              "mlir-c/BuiltinTypes.h"; "mlir-c/BuiltinAttributes.h";
              "mlir-c/Dialect/LLVM.h" ]).
  - vm_compute. reflexivity.
  - vm_compute. reflexivity.
  - vm_compute. reflexivity.
Defined.

(** X2. With a toolchain whose headers are fixed texts and which has the
    twelve headers, preprocessing [wrapper.h] succeeds, leaves the state of
    the toolchain as it was, and yields the contents of the twelve headers
    in the order of the directives and not a line more. *)
Theorem unit_is_the_headers_in_order :
  forall (Env : Type)
    (content : include_form -> string -> option (list string)) (e : Env),
    (forall p, In p (include_paths wrapper_h) -> content Angle p <> None) ->
    exists its,
      preprocess (stateless content) wrapper_h e = Done (its, e)
      /\ header_names its = map (pair Angle) (include_paths wrapper_h)
      /\ unit_lines its
         = flat_map (fun p => content_of content (Angle, p))
                    (include_paths wrapper_h).
Proof.
  intros Env content e Hall.
  exists (map (fun h => Header (fst h) (snd h) (content_of content h))
              (includes wrapper_h)).
  split; [|split].
  - rewrite preprocess_wrapper_h. apply resolve_all_stateless.
    intros [f p] Hin. rewrite wrapper_h_includes in Hin.
    apply in_map_iff in Hin. destruct Hin as [q [Hq Hin]].
    injection Hq as <- <-. simpl. now apply Hall.
  - rewrite <- wrapper_h_includes.
    induction (includes wrapper_h) as [|[f p] hs IH]; simpl;
      [reflexivity | now rewrite IH].
  - rewrite unit_lines_headers, wrapper_h_includes.
    now rewrite flat_map_concat_map, map_map, <- flat_map_concat_map.
Qed.

(** X2 at a toolchain in which every header is one line, its own path. *)
Lemma unit_is_the_headers_in_order_witness :
  exists its,
    preprocess (stateless (fun _ p => Some [p])) wrapper_h 0
    = Done (its, 0)
    /\ header_names its = map (pair Angle) (include_paths wrapper_h)
    /\ unit_lines its
       = flat_map (fun p => content_of (fun _ q => Some [q]) (Angle, p))
                  (include_paths wrapper_h).
Proof.
  apply (unit_is_the_headers_in_order nat (fun _ p => Some [p]) 0).
  intros p _. discriminate.
Defined.



End WrapperUse.
